(** * CadastroComponent (src/app/produto/cadastro/cadastro.component.ts)

    A shallow embedding of the product registration form: the JavaScript
    values it handles, the ECMAScript conversions its code relies on
    ([Number(..)], truthiness, [+], [new Date(..)], [getMonth]/[setMonth]),
    the Angular reactive form it builds, and the component's methods
    [createForm], [checkEditMode], [calcularDataFimGarantia], the three
    validators and [onSubmit].

    Modelling conventions:
    - numbers are [NNaN], [NInf neg] or [NFin q] with [q] the exact value of
      the literal; rounding to binary64 is not modelled except overflow to
      infinity, so a finite [q] is what [Number.isFinite] calls finite;
    - strings are ASCII byte strings; of the StrWhiteSpaceChar set only the
      ASCII ones (TAB, LF, VT, FF, CR, SP) are whitespace;
    - objects live in a heap; a heap cell is a Date object (its time value)
      or a plain object (a map from property names to values);
    - local time is UTC shifted by a constant offset [tz] (no DST);
    - [Date.parse] on strings is implementation-defined and is a parameter. *)

From Stdlib Require Import ZArith QArith Qabs String Ascii Bool Lia.
From stdpp Require Import base gmap strings list fin_maps.
Import ListNotations.

Local Open Scope string_scope.

(* ------------------------------------------------------------------ *)
(** ** Numbers *)

Inductive num :=
| NNaN
| NInf (neg : bool)
| NFin (q : Q).

(** Smallest magnitude that rounds to infinity in binary64:
    2^1024 - 2^970. *)
Definition overflow_bound : Q := inject_Z (2 ^ 1024 - 2 ^ 970)%Z.

(** Rounding of an exact value to a Number, overflow only. *)
Definition round_num (q : Q) : num :=
  if Qle_bool overflow_bound q then NInf false
  else if Qle_bool overflow_bound (- q) then NInf true
  else NFin q.

Definition num_neg (n : num) : num :=
  match n with
  | NNaN => NNaN
  | NInf b => NInf (negb b)
  | NFin q => NFin (- q)
  end.

Definition is_nan (n : num) : bool :=
  match n with NNaN => true | _ => false end.

Definition is_finite (n : num) : bool :=
  match n with NFin _ => true | _ => false end.

(* ------------------------------------------------------------------ *)
(** ** StringToNumber (ECMAScript 7.1.4.1.1) *)

Definition ceq (c d : ascii) : bool := Ascii.eqb c d.

(** StrWhiteSpaceChar, ASCII part. *)
Definition is_ws (c : ascii) : bool :=
  let n := nat_of_ascii c in
  (Nat.eqb n 9 || Nat.eqb n 10 || Nat.eqb n 11 || Nat.eqb n 12
   || Nat.eqb n 13 || Nat.eqb n 32)%bool.

Fixpoint drop_ws (cs : list ascii) : list ascii :=
  match cs with
  | c :: r => if is_ws c then drop_ws r else cs
  | [] => []
  end.

Definition trim_ws (cs : list ascii) : list ascii :=
  rev (drop_ws (rev (drop_ws cs))).

(** Value of a digit in base [b], if it is one. *)
Definition digit_val (b : nat) (c : ascii) : option nat :=
  let n := nat_of_ascii c in
  let d :=
    if Nat.leb 48 n && Nat.leb n 57 then Some (n - 48)
    else if Nat.leb 97 n && Nat.leb n 122 then Some (n - 87)
    else if Nat.leb 65 n && Nat.leb n 90 then Some (n - 55)
    else None in
  match d with
  | Some v => if Nat.ltb v b then Some v else None
  | None => None
  end.

(** Longest prefix of digits in base [b]: their values and the rest. *)
Fixpoint take_digits (b : nat) (cs : list ascii) : list nat * list ascii :=
  match cs with
  | c :: r =>
      match digit_val b c with
      | Some v => let '(ds, rest) := take_digits b r in (v :: ds, rest)
      | None => ([], cs)
      end
  | [] => ([], [])
  end.

Definition digits_value (b : Z) (ds : list nat) : Z :=
  fold_left (fun acc d => acc * b + Z.of_nat d)%Z ds 0%Z.

(** [m * 10 ^ e] as an exact rational. *)
Definition scale10 (m e : Z) : Q :=
  if (0 <=? e)%Z then inject_Z (m * 10 ^ e) else Qmake m (Z.to_pos (10 ^ (- e))).

(** ExponentPart, which must end the literal: [None] if malformed. *)
Definition parse_exponent (cs : list ascii) : option Z :=
  match cs with
  | [] => Some 0%Z
  | e :: r =>
      if (ceq e "e" || ceq e "E")%bool then
        let '(sgn, r') :=
          match r with
          | s :: r'' => if ceq s "+" then (1%Z, r'')
                        else if ceq s "-" then ((-1)%Z, r'')
                        else (1%Z, r)
          | [] => (1%Z, r)
          end in
        let '(ds, rest) := take_digits 10 r' in
        match ds, rest with
        | _ :: _, [] => Some (sgn * digits_value 10 ds)%Z
        | _, _ => None
        end
      else None
  end.

(** StrUnsignedDecimalLiteral. *)
Definition parse_unsigned_decimal (cs : list ascii) : option num :=
  if decide (cs = list_ascii_of_string "Infinity") then Some (NInf false)
  else
    let '(ip, r1) := take_digits 10 cs in
    match r1 with
    | c :: r2 =>
        if ceq c "." then
          let '(fp, r3) := take_digits 10 r2 in
          match app ip fp with
          | [] => None
          | ds =>
              match parse_exponent r3 with
              | Some e => Some (round_num
                  (scale10 (digits_value 10 ds) (e - Z.of_nat (length fp))))
              | None => None
              end
          end
        else
          match ip with
          | [] => None
          | _ => match parse_exponent r1 with
                 | Some e => Some (round_num (scale10 (digits_value 10 ip) e))
                 | None => None
                 end
          end
    | [] =>
        match ip with
        | [] => None
        | _ => Some (round_num (inject_Z (digits_value 10 ip)))
        end
    end.

(** StrDecimalLiteral: an optional sign, then an unsigned literal. *)
Definition parse_decimal (cs : list ascii) : option num :=
  match cs with
  | s :: r =>
      if ceq s "+" then parse_unsigned_decimal r
      else if ceq s "-" then option_map num_neg (parse_unsigned_decimal r)
      else parse_unsigned_decimal cs
  | [] => None
  end.

(** NonDecimalIntegerLiteral: 0x, 0o or 0b followed by digits, no sign. *)
Definition parse_non_decimal (cs : list ascii) : option num :=
  match cs with
  | z :: p :: r =>
      if ceq z "0" then
        let base :=
          if (ceq p "x" || ceq p "X")%bool then Some 16
          else if (ceq p "o" || ceq p "O")%bool then Some 8
          else if (ceq p "b" || ceq p "B")%bool then Some 2
          else None in
        match base with
        | Some b =>
            let '(ds, rest) := take_digits b r in
            match ds, rest with
            | _ :: _, [] => Some (round_num (inject_Z (digits_value (Z.of_nat b) ds)))
            | _, _ => None
            end
        | None => None
        end
      else None
  | _ => None
  end.

(** StringToNumber: trim, empty means 0, otherwise a StrNumericLiteral
    or NaN. *)
Definition string_to_number (s : string) : num :=
  match trim_ws (list_ascii_of_string s) with
  | [] => NFin 0
  | cs =>
      match parse_non_decimal cs with
      | Some n => n
      | None =>
          match parse_decimal cs with
          | Some n => n
          | None => NNaN
          end
      end
  end.


(* ------------------------------------------------------------------ *)
(** ** Values, objects and the heap *)

Abbreviation loc := nat.

Inductive jsval :=
| VUndef
| VNull
| VBool (b : bool)
| VNum (n : num)
| VStr (s : string)
| VRef (l : loc).

(** A heap cell: a Date object with its [[DateValue]] (None is NaN), or a
    plain object with its own enumerable properties. *)
Inductive cell :=
| CDate (tv : option Z)
| CObj (props : gmap string jsval).

Abbreviation heap := (gmap loc cell).

Definition alloc (h : heap) (c : cell) : heap * loc :=
  let l := fresh (dom h) in (<[l := c]> h, l).

(** Properties of the object at [l]; anything else reads as no
    properties. *)
Definition obj_props (h : heap) (l : loc) : gmap string jsval :=
  match h !! l with
  | Some (CObj ps) => ps
  | _ => ∅
  end.

(** Property read [o[k]]: a missing property is [undefined]. *)
Definition get_prop (h : heap) (l : loc) (k : string) : jsval :=
  match obj_props h l !! k with
  | Some v => v
  | None => VUndef
  end.

(** Property write [o[k] = v] on a plain object. *)
Definition set_prop (h : heap) (l : loc) (k : string) (v : jsval) : heap :=
  match h !! l with
  | Some (CObj ps) => <[l := CObj (<[k := v]> ps)]> h
  | _ => h
  end.

(** Primitive values, the results of ToPrimitive. *)
Inductive prim :=
| PUndef
| PNull
| PBool (b : bool)
| PNum (n : num)
| PStr (s : string).

(** ToBoolean (truthiness), as used by [if (x && y)]. *)
Definition truthy (v : jsval) : bool :=
  match v with
  | VUndef | VNull => false
  | VBool b => b
  | VNum NNaN => false
  | VNum (NFin q) => negb (Qeq_bool q 0)
  | VNum (NInf _) => true
  | VStr s => negb (String.eqb s "")
  | VRef _ => true
  end.

Definition prim_to_number (p : prim) : num :=
  match p with
  | PUndef => NNaN
  | PNull => NFin 0
  | PBool b => NFin (if b then 1 else 0)
  | PNum n => n
  | PStr s => string_to_number s
  end.

(** Time value to Number. *)
Definition tv_num (tv : option Z) : num :=
  match tv with
  | Some t => NFin (inject_Z t)
  | None => NNaN
  end.

(** Decimal digits of a non-negative integer. *)
Fixpoint pos_digits (fuel : nat) (n : Z) (acc : string) : string :=
  match fuel with
  | O => acc
  | S f =>
      let d := String (ascii_of_nat (48 + Z.to_nat (n mod 10))) acc in
      if (n <? 10)%Z then d else pos_digits f (n / 10)%Z d
  end.

(** Number::toString on an integer (exact while below 10^21). *)
Definition Z_to_string (z : Z) : string :=
  let a := Z.abs z in
  let ds := pos_digits (S (Z.to_nat (Z.log2 a))) a "" in
  if (z <? 0)%Z then "-" ++ ds else ds.


(* ------------------------------------------------------------------ *)
(** ** Calendar arithmetic on day numbers (days since 1970-01-01)

    ECMAScript's YearFromTime, MonthFromTime and DateFromTime decompose a
    day number in the proleptic Gregorian calendar; MakeDay goes back.
    They are computed here with the era-based conversion: [m] is 1..12. *)

Definition days_from_civil (y m d : Z) : Z :=
  let y' := if (m <=? 2)%Z then (y - 1)%Z else y in
  let era := (y' / 400)%Z in
  let yoe := (y' - era * 400)%Z in
  let mp := ((m + 9) mod 12)%Z in
  let doy := ((153 * mp + 2) / 5 + d - 1)%Z in
  let doe := (yoe * 365 + yoe / 4 - yoe / 100 + doy)%Z in
  (era * 146097 + doe - 719468)%Z.

Definition civil_from_days (z : Z) : Z * Z * Z :=
  let z' := (z + 719468)%Z in
  let era := (z' / 146097)%Z in
  let doe := (z' - era * 146097)%Z in
  let yoe := ((doe - doe / 1460 + doe / 36524 - doe / 146096) / 365)%Z in
  let y := (yoe + era * 400)%Z in
  let doy := (doe - (365 * yoe + yoe / 4 - yoe / 100))%Z in
  let mp := ((5 * doy + 2) / 153)%Z in
  let d := (doy - (153 * mp + 2) / 5 + 1)%Z in
  let m := if (mp <? 10)%Z then (mp + 3)%Z else (mp - 9)%Z in
  ((if (m <=? 2)%Z then (y + 1)%Z else y), m, d).

Definition is_leap (y : Z) : bool :=
  ((Z.eqb (y mod 4) 0 && negb (Z.eqb (y mod 100) 0)) || Z.eqb (y mod 400) 0)%bool.

(** Days in month [m] (1..12) of year [y]. *)
Definition days_in_month (y m : Z) : Z :=
  if (m =? 2)%Z then (if is_leap y then 29 else 28)%Z
  else if ((m =? 4) || (m =? 6) || (m =? 9) || (m =? 11))%Z then 30%Z
  else 31%Z.

Definition msPerDay : Z := 86400000.

(** MakeDay(year, month, date) with a 0-based month of any size: the first
    of the normalised month, then [dt - 1] more days. *)
Definition make_day (y m dt : Z) : Z :=
  (days_from_civil (y + m / 12) (m mod 12 + 1) 1 + dt - 1)%Z.

(** TimeClip. *)
Definition time_clip (n : num) : option Z :=
  match n with
  | NFin q =>
      if Qle_bool (Qabs q) (inject_Z 8640000000000000)
      then Some (Z.quot (Qnum q) (Zpos (Qden q))) else None
  | _ => None
  end.

Definition pad_zeros (n : nat) (s : string) : string :=
  append (string_of_list_ascii (repeat "0"%char (n - String.length s))) s.

Definition weekday_name (k : Z) : string :=
  nth (Z.to_nat k) ["Sun"; "Mon"; "Tue"; "Wed"; "Thu"; "Fri"; "Sat"] "".

Definition month_name (m : Z) : string :=
  nth (Z.to_nat (m - 1)) ["Jan"; "Feb"; "Mar"; "Apr"; "May"; "Jun"; "Jul";
                          "Aug"; "Sep"; "Oct"; "Nov"; "Dec"] "".

Section JSDate.

(** LocalTZA, taken constant: local time is [t + tz]. *)
Variable tz : Z.
(** Date.parse: implementation-defined beyond the ISO format. *)
Variable date_parse : string -> num.

Definition local_fields (t : Z) : Z * Z * Z :=
  civil_from_days ((t + tz) / msPerDay)%Z.

Definition time_within_day (t : Z) : Z := ((t + tz) mod msPerDay)%Z.

(** Date.prototype.getMonth: NaN or the local month, 0..11. *)
Definition get_month (tv : option Z) : option Z :=
  match tv with
  | Some t => let '(_, m, _) := local_fields t in Some (m - 1)%Z
  | None => None
  end.

(** Date.prototype.setMonth(month), the Date's new time value. *)
Definition set_month (tv : option Z) (month : num) : option Z :=
  match tv, month with
  | Some t, NFin q =>
      let '(y, _, dt) := local_fields t in
      let m := Z.quot (Qnum q) (Zpos (Qden q)) in
      let newDate := (make_day y m dt * msPerDay + time_within_day t)%Z in
      time_clip (NFin (inject_Z (newDate - tz)))
  | _, _ => None
  end.

(** Date.prototype.toString, with the empty implementation-defined time
    zone name. *)
Definition date_to_string (tv : option Z) : string :=
  match tv with
  | None => "Invalid Date"
  | Some t =>
      let lt := (t + tz)%Z in
      let '(y, m, d) := local_fields t in
      let ms := (lt mod msPerDay)%Z in
      let two z := pad_zeros 2 (Z_to_string z) in
      let off := Z.abs tz in
      weekday_name ((lt / msPerDay + 4) mod 7)%Z ++ " " ++ month_name m ++ " "
      ++ two d ++ " " ++ (if (y <? 0)%Z then "-" else "")
      ++ pad_zeros 4 (Z_to_string (Z.abs y)) ++ " "
      ++ two (ms / 3600000)%Z ++ ":" ++ two (ms / 60000 mod 60)%Z ++ ":"
      ++ two (ms / 1000 mod 60)%Z ++ " GMT"
      ++ (if (tz <? 0)%Z then "-" else "+") ++ two (off / 3600000)%Z
      ++ two (off / 60000 mod 60)%Z
  end.

(** ToPrimitive with the default hint: a Date gives its string. *)
Definition to_primitive (h : heap) (v : jsval) : prim :=
  match v with
  | VUndef => PUndef
  | VNull => PNull
  | VBool b => PBool b
  | VNum n => PNum n
  | VStr s => PStr s
  | VRef l =>
      match h !! l with
      | Some (CDate tv) => PStr (date_to_string tv)
      | _ => PStr "[object Object]"
      end
  end.

(** ToNumber, i.e. [Number(v)]: a Date gives its time value
    (ToPrimitive with hint number calls valueOf). *)
Definition to_number (h : heap) (v : jsval) : num :=
  match v with
  | VRef l =>
      match h !! l with
      | Some (CDate tv) => tv_num tv
      | _ => string_to_number "[object Object]"
      end
  | VUndef => NNaN
  | VNull => NFin 0
  | VBool b => NFin (if b then 1 else 0)
  | VNum n => n
  | VStr s => string_to_number s
  end.

(** The time value of [new Date(v)] with one argument. *)
Definition new_date_tv (h : heap) (v : jsval) : option Z :=
  match v with
  | VRef l =>
      match h !! l with
      | Some (CDate tv) => tv
      | _ => time_clip (date_parse "[object Object]")
      end
  | VStr s => time_clip (date_parse s)
  | _ => time_clip (prim_to_number (to_primitive h v))
  end.

End JSDate.

(** One instance of [Date.parse] used in the concrete examples: the
    date-only forms [YYYY], [YYYY-MM] and [YYYY-MM-DD] of the Date Time
    String Format, read as UTC, rejecting days past the end of the month;
    NaN for every other string. *)
Definition digits4 (cs : list ascii) : option Z :=
  match take_digits 10 cs with
  | (ds, []) => if Nat.eqb (length ds) 4 then Some (digits_value 10 ds) else None
  | _ => None
  end.

Definition digits2 (cs : list ascii) : option Z :=
  match take_digits 10 cs with
  | (ds, []) => if Nat.eqb (length ds) 2 then Some (digits_value 10 ds) else None
  | _ => None
  end.

Definition iso_date_parse (s : string) : num :=
  let cs := list_ascii_of_string s in
  let ymd :=
    match cs with
    | [a; b; c; d] => match digits4 [a; b; c; d] with
                      | Some y => Some (y, 1%Z, 1%Z) | None => None end
    | [a; b; c; d; s1; e; f] =>
        if ceq s1 "-" then
          match digits4 [a; b; c; d], digits2 [e; f] with
          | Some y, Some m => Some (y, m, 1%Z) | _, _ => None end
        else None
    | [a; b; c; d; s1; e; f; s2; g; i] =>
        if (ceq s1 "-" && ceq s2 "-")%bool then
          match digits4 [a; b; c; d], digits2 [e; f], digits2 [g; i] with
          | Some y, Some m, Some dd => Some (y, m, dd) | _, _, _ => None end
        else None
    | _ => None
    end in
  match ymd with
  | Some (y, m, d) =>
      if ((1 <=? m) && (m <=? 12) && (1 <=? d) && (d <=? days_in_month y m))%Z
      then NFin (inject_Z (days_from_civil y m d * msPerDay)) else NNaN
  | None => NNaN
  end.

(* ------------------------------------------------------------------ *)
(** ** Angular reactive forms (FormGroup, FormControl) *)

Record control := mkControl { cvalue : jsval; cdisabled : bool }.

(** A FormGroup: its controls by name, and the object its [value]
    property currently refers to. *)
Record form := mkForm { controls : gmap string control; fvalue : loc }.

Definition set_cvalue (c : control) (v : jsval) : control :=
  mkControl v (cdisabled c).

(** FormGroup._reduceValue: the values of the enabled controls, or of all
    controls when every control is disabled (the group is then disabled). *)
Definition group_value (cs : gmap string control) : gmap string jsval :=
  let all_disabled :=
    (negb (Nat.eqb (size cs) 0) && forallb (fun kc => cdisabled kc.2) (map_to_list cs))%bool in
  omap (fun c => if (cdisabled c && negb all_disabled)%bool then None
                 else Some (cvalue c)) cs.

(** [_updateValue]: [value] becomes a fresh object. *)
Definition update_value (h : heap) (cs : gmap string control) : form * heap :=
  let '(h', l) := alloc h (CObj (group_value cs)) in (mkForm cs l, h').

(** FormBuilder.group. *)
Definition fb_group (h : heap) (cfg : list (string * control)) : form * heap :=
  update_value h (list_to_map cfg).

(** FormGroup.patchValue(obj): every key of [obj] that names a control sets
    that control (enabled or not); other keys are ignored. *)
Definition patch_value (h : heap) (f : form) (obj : gmap string jsval) : form * heap :=
  update_value h
    (merge (fun oc ov =>
              match oc, ov with
              | Some c, Some v => Some (set_cvalue c v)
              | Some c, None => Some c
              | None, _ => None
              end) (controls f) obj).

(* ------------------------------------------------------------------ *)
(** ** The component *)

Record comp := mkComp {
  produtoForm : form;
  heapst : heap;
  produtoId : num;
  isEditing : bool
}.

(** Calls to collaborators, in the order they happen. *)
Inductive event :=
| EGetProdutoById (id : num)
| EUpdateProduto (produto : gmap string jsval)
| EAddProduto (produto : gmap string jsval)
| ESnackBar (message action : string) (duration : Z)
| ECloseAll
| EConsoleError (err : jsval).

(** What the service's observable does once subscribed. *)
Inductive outcome :=
| ONext
| OError (err : jsval).

Definition ctl (v : jsval) : control := mkControl v false.

(** The field initializer of [produtoForm] (line 17). *)
Definition initial_config : list (string * control) :=
  [("nome", ctl (VStr "")); ("dataCompra", ctl (VStr ""));
   ("duracaoGarantiaMeses", ctl (VStr ""));
   ("dataFimGarantia", mkControl (VStr "") true)].

(** The group built by [createForm] (line 45). *)
Definition createForm_config : list (string * control) :=
  [("id", ctl (VStr "")); ("nome", ctl (VStr ""));
   ("dataCompra", ctl (VStr "")); ("duracaoGarantiaMeses", ctl (VStr ""))].

(** The component right after construction. *)
Definition constructed : comp :=
  let '(f, h) := fb_group ∅ initial_config in mkComp f h (NFin 0) false.

Definition createForm (st : comp) : comp :=
  let '(f, h) := fb_group (heapst st) createForm_config in
  mkComp f h (produtoId st) (isEditing st).

(** [checkEditMode], the part run for one emission of [route.params]:
    [switchMap]'s projection, which either calls [getProdutoById] or
    returns the empty observable [[]]. *)
Definition checkEditMode (st : comp) (params : gmap string string) : comp * list event :=
  match params !! "id" with
  | Some s =>
      if truthy (VStr s) then
        let id := string_to_number s in
        (mkComp (produtoForm st) (heapst st) id true, [EGetProdutoById id])
      else (st, [])
  | None => (st, [])
  end.

(** The [subscribe] callback of [checkEditMode], run when the fetched
    product arrives ([None] is a falsy result such as [null]). *)
Definition checkEditMode_next (st : comp) (produto : option (gmap string jsval)) : comp :=
  match produto with
  | Some p =>
      if isEditing st then
        let '(f, h) := patch_value (heapst st) (produtoForm st) p in
        mkComp f h (produtoId st) (isEditing st)
      else st
  | None => st
  end.

Definition ngOnInit (st : comp) (params : gmap string string) : comp * list event :=
  checkEditMode (createForm st) params.

Definition update_callbacks (o : outcome) : list event :=
  match o with
  | ONext => [ESnackBar "Produto atualizado com sucesso" "Fechar" 2000; ECloseAll]
  | OError e => [EConsoleError e; ESnackBar "Erro ao atualizar o produto" "Fechar" 2000]
  end.

Definition add_callbacks (o : outcome) : list event :=
  match o with
  | ONext => [ESnackBar "Produto cadastrado com sucesso" "Fechar" 2000; ECloseAll]
  | OError e => [EConsoleError e; ESnackBar "Erro ao cadastrar o produto" "Fechar" 2000]
  end.

(** [onSubmit], with the outcome of the service call it subscribes to.
    [produto] is the form's [value] object itself, so [produto.id = ..]
    writes into that object. *)
Definition onSubmit (st : comp) (o : outcome) : comp * list event :=
  let produto := fvalue (produtoForm st) in
  if isEditing st then
    let h := set_prop (heapst st) produto "id" (VNum (produtoId st)) in
    (mkComp (produtoForm st) h (produtoId st) (isEditing st),
     EUpdateProduto (obj_props h produto) :: update_callbacks o)
  else
    (st, EAddProduto (obj_props (heapst st) produto) :: add_callbacks o).

(** Number addition (Number::add), with overflow. *)
Definition num_add (a b : num) : num :=
  match a, b with
  | NNaN, _ | _, NNaN => NNaN
  | NInf x, NInf y => if Bool.eqb x y then NInf x else NNaN
  | NInf x, NFin _ | NFin _, NInf x => NInf x
  | NFin p, NFin q => round_num (p + q)
  end.

(** [m + v] where [m] is a result of getMonth (NaN or an integer) and [v]
    an already primitive right operand: concatenation when [v] is a
    string, numeric addition otherwise. *)
Definition js_add_month (m : option Z) (v : prim) : prim :=
  let mnum := match m with Some k => NFin (inject_Z k) | None => NNaN end in
  match v with
  | PStr s => PStr ((match m with Some k => Z_to_string k | None => "NaN" end) ++ s)
  | _ => PNum (num_add mnum (prim_to_number v))
  end.

Definition invalidNumber : gmap string string :=
  {[ "invalidNumber" := "Por favor, insira um número válido." ]}.
Definition invalidString : gmap string string :=
  {[ "invalidString" := "Por favor, insira um texto válido." ]}.
Definition invalidDate : gmap string string :=
  {[ "invalidDate" := "Por favor, insira uma data válida." ]}.

Section Component.

Variable tz : Z.
Variable date_parse : string -> num.

(** [numberValidator]: [isNaN(Number(control.value))]. *)
Definition numberValidator (h : heap) (c : control) : option (gmap string string) :=
  if is_nan (to_number h (cvalue c)) then Some invalidNumber else None.

(** [stringValidator]: [typeof control.value !== 'string']. *)
Definition stringValidator (c : control) : option (gmap string string) :=
  match cvalue c with
  | VStr _ => None
  | _ => Some invalidString
  end.

(** [dateValidator]: [isNaN(new Date(control.value).getTime())]. *)
Definition dateValidator (h : heap) (c : control) : option (gmap string string) :=
  match new_date_tv tz date_parse h (cvalue c) with
  | None => Some invalidDate
  | Some _ => None
  end.

(** [calcularDataFimGarantia]. *)
Definition calcularDataFimGarantia (st : comp) : comp :=
  let h := heapst st in
  let f := produtoForm st in
  let dataCompra := get_prop h (fvalue f) "dataCompra" in
  let duracaoMeses := get_prop h (fvalue f) "duracaoGarantiaMeses" in
  if (truthy dataCompra && truthy duracaoMeses)%bool then
    (* const dataFimGarantia = new Date(dataCompra) *)
    let tv := new_date_tv tz date_parse h dataCompra in
    let '(h1, l) := alloc h (CDate tv) in
    (* dataFimGarantia.setMonth(dataFimGarantia.getMonth() + duracaoMeses) *)
    let arg := js_add_month (get_month tz tv) (to_primitive tz h1 duracaoMeses) in
    let h2 := <[l := CDate (set_month tz tv (prim_to_number arg))]> h1 in
    (* this.produtoForm.patchValue({ dataFimGarantia }) *)
    let '(f', h3) := patch_value h2 f {[ "dataFimGarantia" := VRef l ]} in
    mkComp f' h3 (produtoId st) (isEditing st)
  else st.

End Component.

(* ------------------------------------------------------------------ *)
(** ** Auxiliary definitions for the statements *)

(** The view writing a value into one control ([FormControl.setValue]
    from the template), which refreshes the group's [value]. *)
Definition set_control_value (st : comp) (k : string) (v : jsval) : comp :=
  let '(f, h) := patch_value (heapst st) (produtoForm st) {[ k := v ]} in
  mkComp f h (produtoId st) (isEditing st).

(** The form's [value] refers to a plain object: true of every state the
    component reaches (see [value_is_object_*] below). *)
Definition value_is_object (st : comp) : bool :=
  match heapst st !! fvalue (produtoForm st) with
  | Some (CObj _) => true
  | _ => false
  end.

Definition is_service_call (e : event) : bool :=
  match e with
  | EGetProdutoById _ | EUpdateProduto _ | EAddProduto _ => true
  | _ => false
  end.

Definition service_calls (evs : list event) : nat :=
  length (filter (fun e => is_service_call e = true) evs).










(** The states the component goes through: construction, initialization
    for some route parameters, arrival of the fetched product, input in a
    field, the derived-field calculation and submissions. *)
Inductive reachable (tz : Z) (date_parse : string -> num) : comp -> Prop :=
| reach_constructed : reachable tz date_parse constructed
| reach_init st params :
    reachable tz date_parse st -> reachable tz date_parse (fst (ngOnInit st params))
| reach_fetched st p :
    reachable tz date_parse st -> reachable tz date_parse (checkEditMode_next st p)
| reach_input st k v :
    reachable tz date_parse st -> reachable tz date_parse (set_control_value st k v)
| reach_calc st :
    reachable tz date_parse st ->
    reachable tz date_parse (calcularDataFimGarantia tz date_parse st)
| reach_submit st o :
    reachable tz date_parse st -> reachable tz date_parse (fst (onSubmit st o)).

(* ------------------------------------------------------------------ *)
(** ** Concrete scenarios *)

(** Editing product 7 (route [/cadastro/7]) after the user typed 99 into
    the [id] field. *)
Definition edit_state : comp :=
  set_control_value (fst (ngOnInit constructed {[ "id" := "7" ]})) "id" (VStr "99").

(** Creating a product, the user having typed a name and an id. *)
Definition create_state : comp :=
  set_control_value
    (set_control_value (fst (ngOnInit constructed ∅)) "nome" (VStr "TV"))
    "id" (VStr "5").

(** The form of the field initializer (which has a [dataFimGarantia]
    control) filled with a purchase date and a duration. *)
Definition filled (dc du : jsval) : comp :=
  set_control_value (set_control_value constructed "dataCompra" dc)
    "duracaoGarantiaMeses" du.

(* ------------------------------------------------------------------ *)
(** ** Runs after initialization *)

(** One transition of the component after [ngOnInit]: the fetched product
    arriving, input in a field, the derived-field calculation, a
    submission. *)
Inductive step (tz : Z) (date_parse : string -> num) : comp -> comp -> Prop :=
| step_fetched st p : step tz date_parse st (checkEditMode_next st p)
| step_input st k v : step tz date_parse st (set_control_value st k v)
| step_calc st : step tz date_parse st (calcularDataFimGarantia tz date_parse st)
| step_submit st o : step tz date_parse st (fst (onSubmit st o)).

(** Any number of such transitions. *)
Inductive steps (tz : Z) (date_parse : string -> num) : comp -> comp -> Prop :=
| steps_refl st : steps tz date_parse st st
| steps_cons st st' st'' :
    step tz date_parse st st' -> steps tz date_parse st' st'' -> steps tz date_parse st st''.

(** Some control is enabled, and a [dataFimGarantia] control, if any, is
    disabled. *)
Definition fim_ctrl (cs : gmap string control) : Prop :=
  (exists k c, cs !! k = Some c /\ cdisabled c = false)
  /\ (forall c, cs !! "dataFimGarantia" = Some c -> cdisabled c = true).

(** [fim_ctrl] holds and the form's [value] object, a plain object, has no
    [dataFimGarantia] property. *)
Definition fim_hidden (st : comp) : Prop :=
  fim_ctrl (controls (produtoForm st))
  /\ exists ps, heapst st !! fvalue (produtoForm st) = Some (CObj ps)
                /\ ps !! "dataFimGarantia" = None.

(** The product handed to the service by a submission. *)
Definition submitted (evs : list event) : option (gmap string jsval) :=
  match evs with
  | EUpdateProduto p :: _ | EAddProduto p :: _ => Some p
  | _ => None
  end.

(* ================================================================== *)
(** * Properties *)

(** ** Sanity checks of the conversions *)

Example string_to_number_12 : string_to_number " 12 " = NFin 12.
Proof. reflexivity. Qed.

Example string_to_number_hex : string_to_number "0x1F" = NFin 31.
Proof. reflexivity. Qed.

Example string_to_number_dot : string_to_number "." = NNaN.
Proof. reflexivity. Qed.

Example Z_to_string_ex : Z_to_string 0 = "0" /\ Z_to_string 512 = "512"
  /\ Z_to_string (-70) = "-70".
Proof. repeat split; reflexivity. Qed.
Example string_to_number_frac : string_to_number "-1.5e1" = NFin (-(15 # 1)).
Proof. reflexivity. Qed.
Example string_to_number_abc : string_to_number "12abc" = NNaN.
Proof. reflexivity. Qed.
Example string_to_number_inf : string_to_number "-Infinity" = NInf true.
Proof. reflexivity. Qed.
Example string_to_number_overflow : string_to_number "1e400" = NInf false.
Proof. vm_compute. reflexivity. Qed.

(** ** Numeric validator *)

(** C10: the numeric validator accepts the empty string ([Number('')] is
    0). *)
Theorem numberValidator_empty_string (h : heap) (d : bool) :
  numberValidator h (mkControl (VStr "") d) = None.
Proof. reflexivity. Qed.

(** C3 (as stated, refuted): passing is not the same as converting to a
    finite number; ["Infinity"] passes although [Number('Infinity')] is not
    finite. *)
Lemma numberValidator_not_finite_check :
  ~ (forall (h : heap) (s : string) (d : bool),
       numberValidator h (mkControl (VStr s) d) = None
       <-> is_finite (string_to_number s) = true).
Proof.
  intros Hall. specialize (Hall ∅ "Infinity" false).
  assert (Hp : numberValidator ∅ (mkControl (VStr "Infinity") false) = None)
    by reflexivity.
  apply Hall in Hp. discriminate Hp.
Qed.

(** C3 (amended): for every string, the numeric validator fails with
    [invalidNumber] exactly when [Number(s)] is NaN, and passes otherwise;
    so it passes on every string converting to a finite number and also on
    those converting to an infinity, such as ["Infinity"], ["-Infinity"]
    and ["1e400"]. *)
Theorem numberValidator_nan_iff (h : heap) (s : string) (d : bool) :
  (numberValidator h (mkControl (VStr s) d) = Some invalidNumber
   <-> string_to_number s = NNaN)
  /\ (numberValidator h (mkControl (VStr s) d) = None
      <-> string_to_number s <> NNaN)
  /\ (is_finite (string_to_number s) = true
      -> numberValidator h (mkControl (VStr s) d) = None)
  /\ numberValidator h (mkControl (VStr "Infinity") d) = None
  /\ numberValidator h (mkControl (VStr "-Infinity") d) = None
  /\ numberValidator h (mkControl (VStr "1e400") d) = None.
Proof.
  assert (Hinf : forall w, string_to_number w <> NNaN ->
                 numberValidator h (mkControl (VStr w) d) = None).
  { intros w Hw. unfold numberValidator.
    change (to_number h (cvalue (mkControl (VStr w) d))) with (string_to_number w).
    destruct (string_to_number w); [congruence | reflexivity | reflexivity]. }
  split; [| split; [| split; [| split; [| split]]]].
  - unfold numberValidator.
    change (to_number h (cvalue (mkControl (VStr s) d))) with (string_to_number s).
    destruct (string_to_number s); simpl; split; congruence.
  - unfold numberValidator.
    change (to_number h (cvalue (mkControl (VStr s) d))) with (string_to_number s).
    destruct (string_to_number s); simpl; split; congruence.
  - intros Hf. apply Hinf. destruct (string_to_number s); simpl in *; congruence.
  - apply Hinf. vm_compute. congruence.
  - apply Hinf. vm_compute. congruence.
  - apply Hinf. vm_compute. congruence.
Qed.

Lemma numberValidator_nan_iff_witness :
  numberValidator ∅ (mkControl (VStr "12") false) = None
  /\ numberValidator ∅ (mkControl (VStr "12abc") false) = Some invalidNumber.
Proof.
  destruct (numberValidator_nan_iff ∅ "12" false) as (_ & _ & H12 & _).
  destruct (numberValidator_nan_iff ∅ "12abc" false) as ([_ Habc] & _).
  split; [apply H12; reflexivity | apply Habc; reflexivity].
Defined.

(** ** Submission *)

Lemma obj_props_set_prop (h : heap) (l : loc) (ps : gmap string jsval) (k : string) (v : jsval) :
  h !! l = Some (CObj ps) -> obj_props (set_prop h l k v) l = <[k := v]> ps.
Proof.
  intros E. unfold set_prop. rewrite E. unfold obj_props. by rewrite lookup_insert_eq.
Qed.

(** C2: in Edit mode with stored identifier [n] (7 in the spec), submitting
    calls the update operation, once, with the form's value in which [id]
    is [n], whatever id the form's fields hold; all other fields are the
    form's. *)
Theorem onSubmit_edit_uses_stored_id (st : comp) (o : outcome) (n : num) :
  value_is_object st = true -> isEditing st = true -> produtoId st = n ->
  exists p rest,
    snd (onSubmit st o) = EUpdateProduto p :: rest
    /\ p !! "id" = Some (VNum n)
    /\ (forall k, k <> "id" ->
          p !! k = obj_props (heapst st) (fvalue (produtoForm st)) !! k)
    /\ service_calls rest = 0.
Proof.
  intros Hobj Hed Hid. unfold value_is_object in Hobj.
  destruct (heapst st !! fvalue (produtoForm st)) as [[tv | ps] |] eqn:E;
    try discriminate.
  unfold onSubmit. rewrite Hed. simpl.
  rewrite (obj_props_set_prop _ _ ps) by exact E. rewrite Hid.
  exists (<[ "id" := VNum n ]> ps), (update_callbacks o).
  split; [reflexivity | split; [by rewrite lookup_insert_eq | split]].
  - intros k Hk. rewrite lookup_insert_ne by congruence.
    unfold obj_props. by rewrite E.
  - destruct o; reflexivity.
Qed.

Lemma onSubmit_edit_uses_stored_id_witness :
  value_is_object edit_state = true /\ isEditing edit_state = true
  /\ produtoId edit_state = NFin 7
  /\ exists p rest,
       snd (onSubmit edit_state ONext) = EUpdateProduto p :: rest
       /\ p !! "id" = Some (VNum (NFin 7))
       /\ (forall k, k <> "id" ->
             p !! k = obj_props (heapst edit_state) (fvalue (produtoForm edit_state)) !! k)
       /\ service_calls rest = 0.
Proof.
  split; [vm_compute; reflexivity |].
  split; [vm_compute; reflexivity |].
  split; [vm_compute; reflexivity |].
  apply (onSubmit_edit_uses_stored_id edit_state ONext (NFin 7));
    vm_compute; reflexivity.
Defined.

(** The form of [edit_state] does hold another id. *)
Example edit_state_form_id :
  get_prop (heapst edit_state) (fvalue (produtoForm edit_state)) "id" = VStr "99".
Proof. vm_compute. reflexivity. Qed.

(** C5: in Create mode, submitting calls the add operation once with the
    form's value object as it is: nothing, in particular no id, is attached
    to it (its [id] entry, if any, is the form's own field), and the
    component state is left as it was. *)
Theorem onSubmit_create_attaches_nothing (st : comp) (o : outcome) :
  isEditing st = false ->
  onSubmit st o
  = (st, EAddProduto (obj_props (heapst st) (fvalue (produtoForm st))) :: add_callbacks o)
  /\ service_calls (snd (onSubmit st o)) = 1.
Proof.
  intros Hed. unfold onSubmit. rewrite Hed. split; [reflexivity |].
  destruct o; reflexivity.
Qed.

Lemma onSubmit_create_attaches_nothing_witness :
  isEditing create_state = false
  /\ onSubmit create_state ONext
     = (create_state, EAddProduto (obj_props (heapst create_state)
                        (fvalue (produtoForm create_state))) :: add_callbacks ONext)
  /\ service_calls (snd (onSubmit create_state ONext)) = 1.
Proof.
  split; [vm_compute; reflexivity |].
  apply onSubmit_create_attaches_nothing. vm_compute. reflexivity.
Defined.

(** C6: when the service call fails, the component logs the error and
    shows a failure message different from the success message (and closes
    no dialog), makes exactly one service call (no retry), and the failure
    leaves the form as it was: same controls, same state as on success. *)
Theorem onSubmit_failure (st : comp) (e : jsval) :
  let '(st', evs) := onSubmit st (OError e) in
  produtoForm st' = produtoForm st
  /\ st' = fst (onSubmit st ONext)
  /\ service_calls evs = 1
  /\ exists call fail_msg ok_msg,
       evs = [call; EConsoleError e; ESnackBar fail_msg "Fechar" 2000]
       /\ snd (onSubmit st ONext) = [call; ESnackBar ok_msg "Fechar" 2000; ECloseAll]
       /\ is_service_call call = true
       /\ fail_msg <> ok_msg.
Proof.
  unfold onSubmit. destruct (isEditing st); simpl.
  - split; [reflexivity | split; [reflexivity | split; [reflexivity |]]].
    eexists _, _, _. split; [reflexivity | split; [reflexivity | split; [reflexivity |]]].
    discriminate.
  - split; [reflexivity | split; [reflexivity | split; [reflexivity |]]].
    eexists _, _, _. split; [reflexivity | split; [reflexivity | split; [reflexivity |]]].
    discriminate.
Qed.

(** ** The form's value is a plain object in every reachable state *)

Lemma update_value_is_object (h : heap) (cs : gmap string control) :
  snd (update_value h cs) !! fvalue (fst (update_value h cs))
  = Some (CObj (group_value cs)).
Proof. unfold update_value, alloc. simpl. by rewrite lookup_insert_eq. Qed.

Lemma value_is_object_reachable (tz : Z) (dp : string -> num) (st : comp) :
  reachable tz dp st -> value_is_object st = true.
Proof.
  induction 1 as [| st params _ IH | st p _ IH | st k v _ IH | st _ IH | st o _ IH].
  - reflexivity.
  - unfold ngOnInit, checkEditMode.
    assert (Hc : value_is_object (createForm st) = true).
    { unfold value_is_object, createForm, fb_group.
      destruct (update_value (heapst st) (list_to_map createForm_config)) as [f h] eqn:E.
      simpl. pose proof (update_value_is_object (heapst st) (list_to_map createForm_config)) as U.
      rewrite E in U. simpl in U. by rewrite U. }
    destruct (params !! "id") as [s |]; [destruct (truthy (VStr s)) |]; exact Hc.
  - unfold checkEditMode_next. destruct p as [p |]; [| exact IH].
    destruct (isEditing st); [| exact IH].
    unfold patch_value.
    match goal with |- context [update_value ?h ?cs] =>
      pose proof (update_value_is_object h cs) as U;
      destruct (update_value h cs) as [f h'] end.
    unfold value_is_object. simpl in *. by rewrite U.
  - unfold set_control_value, patch_value.
    match goal with |- context [update_value ?h ?cs] =>
      pose proof (update_value_is_object h cs) as U;
      destruct (update_value h cs) as [f h'] end.
    unfold value_is_object. simpl in *. by rewrite U.
  - unfold calcularDataFimGarantia.
    destruct (truthy _ && truthy _)%bool; [| exact IH].
    unfold alloc. cbn zeta. unfold patch_value.
    match goal with |- context [update_value ?h ?cs] =>
      pose proof (update_value_is_object h cs) as U;
      destruct (update_value h cs) as [f h'] end.
    unfold value_is_object. simpl in *. by rewrite U.
  - unfold onSubmit. destruct (isEditing st); [| exact IH].
    unfold value_is_object in *. simpl.
    destruct (heapst st !! fvalue (produtoForm st)) as [[tv | ps] |] eqn:E;
      try discriminate.
    unfold set_prop. rewrite E. by rewrite lookup_insert_eq.
Qed.

(** ** Initialization *)

(** C8: with no [id] route parameter, initialization calls no service at
    all and leaves the component in Create mode with the fresh form; with a
    non-empty [id] it enters Edit mode, stores [+id] and makes exactly one
    call, [getProdutoById(+id)]. (An empty [id] is falsy and behaves as an
    absent one.) *)
Theorem ngOnInit_fetch_at_most_once (st : comp) (params : gmap string string) :
  (params !! "id" = None -> ngOnInit st params = (createForm st, []))
  /\ (forall s, params !! "id" = Some s -> s <> "" ->
        ngOnInit st params
        = (mkComp (produtoForm (createForm st)) (heapst (createForm st))
                  (string_to_number s) true,
           [EGetProdutoById (string_to_number s)]))
  /\ (params !! "id" = Some "" -> ngOnInit st params = (createForm st, [])).
Proof.
  unfold ngOnInit, checkEditMode.
  split; [| split].
  - intros H. by rewrite H.
  - intros s H Hs. rewrite H. unfold truthy.
    destruct (String.eqb s "") eqn:E.
    + apply String.eqb_eq in E. contradiction.
    + reflexivity.
  - intros H. by rewrite H.
Qed.

Lemma ngOnInit_fetch_at_most_once_witness :
  ngOnInit constructed ∅ = (createForm constructed, [])
  /\ ngOnInit constructed {[ "id" := "7" ]}
     = (mkComp (produtoForm (createForm constructed)) (heapst (createForm constructed))
               (string_to_number "7") true,
        [EGetProdutoById (string_to_number "7")]).
Proof.
  split.
  - apply (proj1 (ngOnInit_fetch_at_most_once constructed ∅)). reflexivity.
  - apply (proj1 (proj2 (ngOnInit_fetch_at_most_once constructed {[ "id" := "7" ]})));
      [reflexivity | discriminate].
Defined.

(** ** The derived-field calculation *)

Lemma truthy_zero (q : Q) : Qeq q 0 -> truthy (VNum (NFin q)) = false.
Proof.
  intros Hq. unfold truthy. apply Qeq_bool_iff in Hq. by rewrite Hq.
Qed.

(** C9: with the duration equal to the number 0 (falsy in JavaScript), the
    calculation does nothing at all, whatever the purchase date:
    [dataFimGarantia] keeps its value instead of becoming the purchase date
    plus zero months. *)
Theorem calcular_zero_duration_no_update (tz : Z) (dp : string -> num) (st : comp) (q : Q) :
  Qeq q 0 ->
  get_prop (heapst st) (fvalue (produtoForm st)) "duracaoGarantiaMeses" = VNum (NFin q) ->
  calcularDataFimGarantia tz dp st = st.
Proof.
  intros Hq Hdu. unfold calcularDataFimGarantia. cbn zeta.
  rewrite Hdu, (truthy_zero q Hq), andb_false_r. reflexivity.
Qed.

Lemma calcular_zero_duration_no_update_witness :
  new_date_tv 0 iso_date_parse (heapst (filled (VStr "2024-01-15") (VNum (NFin 0))))
    (VStr "2024-01-15") <> None
  /\ calcularDataFimGarantia 0 iso_date_parse (filled (VStr "2024-01-15") (VNum (NFin 0)))
     = filled (VStr "2024-01-15") (VNum (NFin 0)).
Proof.
  split; [vm_compute; discriminate |].
  apply (calcular_zero_duration_no_update 0 iso_date_parse _ 0); [reflexivity |].
  vm_compute. reflexivity.
Defined.

Lemma fresh_ne {A} (h : gmap loc A) (l : loc) (c : A) :
  h !! l = Some c -> l <> fresh (dom h).
Proof.
  intros Hl ->. apply (is_fresh (dom h)). apply elem_of_dom. eauto.
Qed.



(** ** Calendar conversion: one era checked exhaustively, then all years *)














(** ** Arithmetic of the month shift *)



Lemma time_clip_Z (u : Z) :
  (Z.abs u <= 8640000000000000)%Z -> time_clip (NFin (inject_Z u)) = Some u.
Proof.
  intros Hu. unfold time_clip.
  replace (Qle_bool (Qabs (inject_Z u)) (inject_Z 8640000000000000)) with true.
  - simpl. by rewrite Z.quot_1_r.
  - symmetry. apply Qle_bool_iff. change (Qabs (inject_Z u)) with (inject_Z (Z.abs u)).
    rewrite <- Zle_Qle. exact Hu.
Qed.



(** ** The derived field [dataFimGarantia] *)





(* ------------------------------------------------------------------ *)
(** ** The validators on further inputs *)

Lemma drop_ws_app_ws (ws cs : list ascii) :
  Forall (fun c => is_ws c = true) ws -> drop_ws (app ws cs) = drop_ws cs.
Proof. induction 1 as [| c ws Hc _ IH]; [reflexivity |]. simpl. by rewrite Hc. Qed.

Lemma drop_ws_app_r (cs ws : list ascii) :
  Forall (fun c => is_ws c = true) ws ->
  drop_ws (app cs ws) = match drop_ws cs with [] => [] | r => app r ws end.
Proof.
  intros Hw. induction cs as [| c cs IH].
  - simpl. rewrite <- (app_nil_r ws), drop_ws_app_ws by exact Hw. reflexivity.
  - simpl. destruct (is_ws c); [exact IH | reflexivity].
Qed.

Lemma trim_ws_pad (ws1 cs ws2 : list ascii) :
  Forall (fun c => is_ws c = true) ws1 -> Forall (fun c => is_ws c = true) ws2 ->
  trim_ws (app ws1 (app cs ws2)) = trim_ws cs.
Proof.
  intros H1 H2. unfold trim_ws. rewrite drop_ws_app_ws by exact H1.
  rewrite drop_ws_app_r by exact H2.
  destruct (drop_ws cs) as [| c r] eqn:E; [reflexivity |].
  rewrite rev_app_distr, drop_ws_app_ws; [reflexivity |].
  by apply Forall_rev.
Qed.

(** X1: the numeric validator ignores whitespace (tab, line feed,
    vertical tab, form feed, carriage return, space) around the value, and
    accepts a value made only of whitespace, which [Number] reads as 0. *)
Theorem numberValidator_ignores_whitespace (h : heap) (d : bool) (s : string)
    (ws1 ws2 : list ascii) :
  Forall (fun c => is_ws c = true) ws1 -> Forall (fun c => is_ws c = true) ws2 ->
  numberValidator h (mkControl (VStr (string_of_list_ascii (app ws1 (app (list_ascii_of_string s) ws2)))) d)
  = numberValidator h (mkControl (VStr s) d)
  /\ numberValidator h (mkControl (VStr (string_of_list_ascii ws1)) d) = None.
Proof.
  intros H1 H2. unfold numberValidator.
  change (to_number h (cvalue (mkControl (VStr ?w) d))) with (string_to_number w).
  unfold string_to_number. rewrite !list_ascii_of_string_of_list_ascii.
  rewrite trim_ws_pad by assumption. split; [reflexivity |].
  assert (E : trim_ws ws1 = []).
  { pose proof (trim_ws_pad ws1 [] [] H1 (List.Forall_nil _)) as T.
    rewrite !app_nil_r in T. exact T. }
  rewrite E. reflexivity.
Qed.

Lemma numberValidator_ignores_whitespace_witness :
  numberValidator ∅ (mkControl (VStr (string_of_list_ascii
     (app [" "%char; "009"%char] (app (list_ascii_of_string "12") ["010"%char])))) false) = None
  /\ numberValidator ∅ (mkControl (VStr (string_of_list_ascii [" "%char; " "%char])) false) = None.
Proof.
  destruct (numberValidator_ignores_whitespace ∅ false "12" [" "%char; "009"%char] ["010"%char]
              ltac:(repeat constructor) ltac:(repeat constructor)) as [H1 _].
  destruct (numberValidator_ignores_whitespace ∅ false "" [" "%char; " "%char] []
              ltac:(repeat constructor) ltac:(repeat constructor)) as [_ H2].
  split; [rewrite H1; reflexivity | exact H2].
Defined.

(** X2: on values that are not strings, the numeric validator accepts
    [null] and booleans (they convert to 0 and 1), rejects [undefined],
    accepts a number exactly when it is not NaN, accepts a Date object
    exactly when it is a valid date, and rejects a plain object. *)
Theorem numberValidator_non_string (h : heap) (d : bool) :
  numberValidator h (mkControl VNull d) = None
  /\ (forall b, numberValidator h (mkControl (VBool b) d) = None)
  /\ numberValidator h (mkControl VUndef d) = Some invalidNumber
  /\ (forall n, numberValidator h (mkControl (VNum n) d) = None <-> n <> NNaN)
  /\ (forall l tv, h !! l = Some (CDate tv) ->
        numberValidator h (mkControl (VRef l) d) = None <-> tv <> None)
  /\ (forall l ps, h !! l = Some (CObj ps) ->
        numberValidator h (mkControl (VRef l) d) = Some invalidNumber).
Proof.
  unfold numberValidator. cbn [cvalue].
  split; [reflexivity | split; [reflexivity | split; [reflexivity | split; [| split]]]].
  - intros n. destruct n; simpl; split; congruence.
  - intros l tv Hl. simpl. rewrite Hl. destruct tv; simpl; split; congruence.
  - intros l ps Hl. simpl. rewrite Hl. vm_compute. reflexivity.
Qed.

Lemma numberValidator_non_string_witness :
  numberValidator {[ 0 := CDate None ]} (mkControl (VRef 0) false) <> None
  /\ numberValidator {[ 0 := CDate (Some 0%Z) ]} (mkControl (VRef 0) false) = None.
Proof.
  destruct (numberValidator_non_string {[ 0 := CDate None ]} false) as (_ & _ & _ & _ & H1 & _).
  destruct (numberValidator_non_string {[ 0 := CDate (Some 0%Z) ]} false) as (_ & _ & _ & _ & H2 & _).
  split.
  - intros E. exact (proj1 (H1 0 None ltac:(reflexivity)) E eq_refl).
  - apply (H2 0 (Some 0%Z)); [reflexivity | discriminate].
Defined.

(** X3: on values that are not strings, the date validator, whatever
    [Date.parse] does, accepts [null] (the epoch) and booleans, rejects
    [undefined], NaN and the infinities, accepts an integer exactly when
    its magnitude is at most 8.64e15 ms, and accepts a Date object exactly
    when it is a valid date. *)
Theorem dateValidator_non_string (tz : Z) (dp : string -> num) (h : heap) (d : bool) :
  dateValidator tz dp h (mkControl VNull d) = None
  /\ (forall b, dateValidator tz dp h (mkControl (VBool b) d) = None)
  /\ dateValidator tz dp h (mkControl VUndef d) = Some invalidDate
  /\ (forall n : Z, dateValidator tz dp h (mkControl (VNum (NFin (inject_Z n))) d) = None
                    <-> (Z.abs n <= 8640000000000000)%Z)
  /\ dateValidator tz dp h (mkControl (VNum NNaN) d) = Some invalidDate
  /\ (forall b, dateValidator tz dp h (mkControl (VNum (NInf b)) d) = Some invalidDate)
  /\ (forall l tv, h !! l = Some (CDate tv) ->
        dateValidator tz dp h (mkControl (VRef l) d) = None <-> tv <> None).
Proof.
  unfold dateValidator. cbn [cvalue].
  split; [reflexivity | split; [| split; [reflexivity | split; [| split; [reflexivity | split]]]]].
  - intros []; reflexivity.
  - intros n.
    change (new_date_tv tz dp h (VNum (NFin (inject_Z n)))) with (time_clip (NFin (inject_Z n))).
    destruct (Z_le_gt_dec (Z.abs n) 8640000000000000) as [Hle | Hgt].
    + rewrite time_clip_Z by exact Hle. split; [intros _; exact Hle | intros _; reflexivity].
    + assert (E0 : time_clip (NFin (inject_Z n)) = None).
      { unfold time_clip. change (Qabs (inject_Z n)) with (inject_Z (Z.abs n)).
        destruct (Qle_bool (inject_Z (Z.abs n)) (inject_Z 8640000000000000)) eqn:E;
          [| reflexivity].
        apply Qle_bool_iff in E. rewrite <- Zle_Qle in E. lia. }
      rewrite E0. split; [discriminate | lia].
  - intros b. reflexivity.
  - intros l tv Hl. simpl. rewrite Hl. destruct tv; split; congruence.
Qed.

Lemma dateValidator_non_string_witness :
  dateValidator 0 iso_date_parse ∅ (mkControl (VNum (NFin (inject_Z 8640000000000000))) false) = None
  /\ dateValidator 0 iso_date_parse ∅ (mkControl (VNum (NFin (inject_Z 8640000000000001))) false)
     <> None.
Proof.
  destruct (dateValidator_non_string 0 iso_date_parse ∅ false) as (_ & _ & _ & H & _).
  split.
  - apply H. lia.
  - intros E. apply H in E. lia.
Defined.

(** X10: a string duration is concatenated, not added. On a form that
    has a [dataFimGarantia] control (such as the form the component is
    constructed with), with a truthy [dataCompra] that converts to a valid
    Date in local month [m] and a non-empty string [s] in
    [duracaoGarantiaMeses], the control is patched with a new Date: the
    purchase date with [setMonth(Number(String(m - 1) + s))] applied; with
    ['12'] and 15 May 2024 that is 15 May 2058. *)
Theorem calcular_string_duration (tz : Z) (dp : string -> num) (st : comp)
    (s : string) (c : control) (t y m d : Z) :
  let h := heapst st in
  let f := produtoForm st in
  let dc := get_prop h (fvalue f) "dataCompra" in
  let st' := calcularDataFimGarantia tz dp st in
  truthy dc = true ->
  get_prop h (fvalue f) "duracaoGarantiaMeses" = VStr s -> s <> "" ->
  controls f !! "dataFimGarantia" = Some c ->
  new_date_tv tz dp h dc = Some t -> local_fields tz t = (y, m, d) ->
  exists l,
    controls (produtoForm st') !! "dataFimGarantia" = Some (set_cvalue c (VRef l))
    /\ heapst st' !! l
       = Some (CDate (set_month tz (Some t)
                        (string_to_number (Z_to_string (m - 1) ++ s)))).
Proof.
  intros h f dc st' Hdc Hdu Hne Hc Ht Hlf. subst st'.
  assert (Hdut : truthy (VStr s) = true).
  { unfold truthy. apply negb_true_iff. by apply String.eqb_neq. }
  unfold calcularDataFimGarantia. fold h f dc.
  rewrite Hdc, Hdu, Hdut. simpl andb.
  exists (fresh (dom h)).
  unfold alloc. cbn zeta. fold dc. rewrite Ht.
  unfold get_month. rewrite Hlf. cbn [to_primitive js_add_month prim_to_number].
  split.
  - unfold patch_value, update_value, alloc. simpl.
    rewrite lookup_merge, lookup_singleton_eq, Hc. reflexivity.
  - unfold patch_value, update_value, alloc. cbn [fst snd heapst].
    set (l := fresh (dom h)).
    set (c' := CDate (set_month tz (Some t) (string_to_number (Z_to_string (m - 1) ++ s)))).
    rewrite lookup_insert_ne.
    + apply lookup_insert_eq.
    + intros E. apply (fresh_ne (<[l:=c']> (<[l:=CDate (Some t)]> h)) l c');
        [apply lookup_insert_eq | exact (eq_sym E)].
Qed.

Lemma calcular_string_duration_witness :
  exists l tv,
    controls (produtoForm (calcularDataFimGarantia 0 iso_date_parse
                (filled (VStr "2024-05-15") (VStr "12")))) !! "dataFimGarantia"
    = Some (mkControl (VRef l) true)
    /\ heapst (calcularDataFimGarantia 0 iso_date_parse
                (filled (VStr "2024-05-15") (VStr "12"))) !! l = Some (CDate tv)
    /\ option_map (local_fields 0) tv = Some (2058%Z, 5%Z, 15%Z).
Proof.
  destruct (calcular_string_duration 0 iso_date_parse (filled (VStr "2024-05-15") (VStr "12"))
              "12" (mkControl (VStr "") true) 1715731200000%Z 2024%Z 5%Z 15%Z)
    as (l & H1 & H2);
    [vm_compute; reflexivity | vm_compute; reflexivity | discriminate
    | vm_compute; reflexivity | vm_compute; reflexivity | vm_compute; reflexivity |].
  eexists l, _. split; [exact H1 | split; [exact H2 | vm_compute; reflexivity]].
Defined.

(* ------------------------------------------------------------------ *)
(** ** The form across initialization, fetch, input and submission *)

Lemma lookup_patch_value (h : heap) (f : form) (obj : gmap string jsval) (k : string) :
  controls (fst (patch_value h f obj)) !! k
  = (fun c => match obj !! k with Some v => set_cvalue c v | None => c end)
      <$> controls f !! k.
Proof.
  unfold patch_value, update_value, alloc. simpl. rewrite lookup_merge.
  destruct (controls f !! k), (obj !! k); reflexivity.
Qed.

Lemma update_value_spec (h : heap) (cs : gmap string control) :
  controls (fst (update_value h cs)) = cs
  /\ snd (update_value h cs) !! fvalue (fst (update_value h cs)) = Some (CObj (group_value cs))
  /\ (forall l c, h !! l = Some c -> snd (update_value h cs) !! l = Some c).
Proof.
  unfold update_value, alloc. simpl. split; [reflexivity | split].
  - apply lookup_insert_eq.
  - intros l c Hl. rewrite lookup_insert_ne; [exact Hl |].
    intros E. apply (fresh_ne h l c Hl). congruence.
Qed.

Lemma group_value_enabled (cs : gmap string control) (k : string) (c : control) :
  cs !! k = Some c -> cdisabled c = false -> group_value cs !! k = Some (cvalue c).
Proof. intros Hk Hd. unfold group_value. rewrite lookup_omap, Hk. simpl. by rewrite Hd. Qed.

Lemma group_value_disabled (cs : gmap string control) (k j : string) (c c' : control) :
  cs !! k = Some c -> cdisabled c = false ->
  cs !! j = Some c' -> cdisabled c' = true -> group_value cs !! j = None.
Proof.
  intros Hk Hd Hj Hd'. unfold group_value. rewrite lookup_omap, Hj. simpl. rewrite Hd'.
  assert (E : forallb (fun kc : string * control => cdisabled kc.2) (map_to_list cs) = false).
  { apply not_true_iff_false. intros Hall. rewrite forallb_forall in Hall.
    assert (Hin : In (k, c) (map_to_list cs)).
    { apply list_elem_of_In. by apply elem_of_map_to_list. }
    specialize (Hall _ Hin). simpl in Hall. congruence. }
  rewrite E, andb_false_r. reflexivity.
Qed.

Lemma fim_ctrl_patch (h : heap) (f : form) (obj : gmap string jsval) :
  fim_ctrl (controls f) -> fim_ctrl (controls (fst (patch_value h f obj))).
Proof.
  intros [(k & c & Hk & Hd) Hf]. split.
  - exists k, (match obj !! k with Some v => set_cvalue c v | None => c end).
    rewrite lookup_patch_value, Hk. split; [reflexivity |].
    destruct (obj !! k); exact Hd.
  - intros c' Hc'. rewrite lookup_patch_value in Hc'.
    destruct (controls f !! "dataFimGarantia") as [c0 |] eqn:E; [| discriminate].
    simpl in Hc'. injection Hc' as <-. specialize (Hf c0 eq_refl).
    destruct (obj !! "dataFimGarantia"); exact Hf.
Qed.

Lemma fim_value_group (cs : gmap string control) :
  fim_ctrl cs -> group_value cs !! "dataFimGarantia" = None.
Proof.
  intros [(k & c & Hk & Hd) Hf].
  destruct (cs !! "dataFimGarantia") as [c' |] eqn:E.
  - exact (group_value_disabled cs k _ c c' Hk Hd E (Hf c' eq_refl)).
  - unfold group_value. by rewrite lookup_omap, E.
Qed.

Lemma fim_hidden_patch (st : comp) (obj : gmap string jsval) (h : heap) :
  fim_ctrl (controls (produtoForm st)) ->
  let '(f, h') := patch_value h (produtoForm st) obj in
  fim_hidden (mkComp f h' (produtoId st) (isEditing st)).
Proof.
  intros Hc.
  pose proof (fim_ctrl_patch h (produtoForm st) obj Hc) as Hc'.
  unfold patch_value in *.
  match goal with |- context [update_value ?h0 ?cs] =>
    pose proof (update_value_spec h0 cs) as (U1 & U2 & _);
    destruct (update_value h0 cs) as [f h'] end.
  simpl in *. split; [exact Hc' |].
  exists (group_value (controls f)). split; [rewrite U1; exact U2 |].
  apply fim_value_group. exact Hc'.
Qed.

Lemma fim_hidden_createForm (st : comp) : fim_hidden (createForm st).
Proof.
  unfold createForm, fb_group.
  pose proof (update_value_spec (heapst st) (list_to_map createForm_config)) as (U1 & U2 & _).
  destruct (update_value (heapst st) (list_to_map createForm_config)) as [f h].
  cbn [fst snd produtoForm heapst] in *. unfold fim_hidden, fim_ctrl. cbn [produtoForm heapst]. rewrite U1. split; [split |].
  - exists "id", (ctl (VStr "")). split; reflexivity.
  - intros c Hc. vm_compute in Hc. discriminate.
  - exists (group_value (list_to_map createForm_config)). split; [exact U2 |].
    vm_compute. reflexivity.
Qed.

Lemma fim_hidden_init (st : comp) (params : gmap string string) :
  fim_hidden (fst (ngOnInit st params)).
Proof.
  pose proof (fim_hidden_createForm st) as H.
  unfold ngOnInit, checkEditMode.
  destruct (params !! "id") as [s |]; [destruct (truthy (VStr s)) |]; exact H.
Qed.

Lemma fim_hidden_step (tz : Z) (dp : string -> num) (st st' : comp) :
  step tz dp st st' -> fim_hidden st -> fim_hidden st'.
Proof.
  intros Hs [Hc Hv]. destruct Hs as [st p | st k v | st | st o].
  - unfold checkEditMode_next. destruct p as [p |]; [| by split].
    destruct (isEditing st); [| by split].
    pose proof (fim_hidden_patch st p (heapst st) Hc) as H.
    destruct (patch_value (heapst st) (produtoForm st) p). exact H.
  - unfold set_control_value.
    pose proof (fim_hidden_patch st {[k := v]} (heapst st) Hc) as H.
    destruct (patch_value (heapst st) (produtoForm st) {[k := v]}). exact H.
  - unfold calcularDataFimGarantia.
    destruct (truthy _ && truthy _)%bool; [| by split].
    unfold alloc. cbn zeta.
    match goal with |- context [patch_value ?h0 _ ?obj] =>
      pose proof (fim_hidden_patch st obj h0 Hc) as H;
      destruct (patch_value h0 (produtoForm st) obj) end.
    exact H.
  - unfold onSubmit. destruct (isEditing st); [| by split].
    split; [exact Hc |]. destruct Hv as (ps & Hps & Hn). simpl.
    exists (<["id" := VNum (produtoId st)]> ps). split.
    + unfold set_prop. rewrite Hps. apply lookup_insert_eq.
    + by rewrite lookup_insert_ne.
Qed.

Lemma fim_hidden_reachable (tz : Z) (dp : string -> num) (st : comp) :
  reachable tz dp st -> fim_hidden st.
Proof.
  induction 1 as [| st params _ IH | st p _ IH | st k v _ IH | st _ IH | st o _ IH].
  - split; [split |].
    + exists "nome", (ctl (VStr "")). split; reflexivity.
    + intros c Hc. vm_compute in Hc. injection Hc as <-. reflexivity.
    + exists (group_value (list_to_map initial_config)). split; vm_compute; reflexivity.
  - apply fim_hidden_init.
  - exact (fim_hidden_step tz dp _ _ (step_fetched tz dp st p) IH).
  - exact (fim_hidden_step tz dp _ _ (step_input tz dp st k v) IH).
  - exact (fim_hidden_step tz dp _ _ (step_calc tz dp st) IH).
  - exact (fim_hidden_step tz dp _ _ (step_submit tz dp st o) IH).
Qed.

(** X9: whatever the component went through, a submission never sends a
    [dataFimGarantia] property: the control is disabled on the initial
    form and absent from the form of [createForm], and Angular leaves
    disabled controls out of [value]. *)
Theorem dataFimGarantia_never_submitted (tz : Z) (dp : string -> num) (st : comp) (o : outcome) :
  reachable tz dp st ->
  exists p, submitted (snd (onSubmit st o)) = Some p /\ p !! "dataFimGarantia" = None.
Proof.
  intros R. destruct (fim_hidden_reachable tz dp st R) as [_ (ps & Hps & Hn)].
  unfold onSubmit. destruct (isEditing st); simpl.
  - exists (<["id" := VNum (produtoId st)]> ps). split.
    + by rewrite (obj_props_set_prop _ _ ps _ _ Hps).
    + by rewrite lookup_insert_ne.
  - exists ps. split; [| exact Hn]. unfold obj_props. by rewrite Hps.
Qed.

Lemma dataFimGarantia_never_submitted_witness :
  controls (produtoForm (calcularDataFimGarantia 0 iso_date_parse
              (filled (VStr "2024-01-15") (VNum (NFin 12))))) !! "dataFimGarantia"
    = Some (mkControl (VRef 3) true)
  /\ exists p, submitted (snd (onSubmit (calcularDataFimGarantia 0 iso_date_parse
              (filled (VStr "2024-01-15") (VNum (NFin 12)))) ONext)) = Some p
     /\ p !! "dataFimGarantia" = None.
Proof.
  split; [vm_compute; reflexivity |].
  apply (dataFimGarantia_never_submitted 0 iso_date_parse).
  apply reach_calc. unfold filled. apply reach_input, reach_input, reach_constructed.
Defined.

Lemma step_mode (tz : Z) (dp : string -> num) (st st' : comp) :
  step tz dp st st' -> isEditing st' = isEditing st /\ produtoId st' = produtoId st.
Proof.
  destruct 1 as [st p | st k v | st | st o].
  - unfold checkEditMode_next. destruct p as [p |]; [| done].
    destruct (isEditing st) eqn:E; [| done].
    destruct (patch_value _ _ _). simpl. by rewrite ?E.
  - unfold set_control_value. by destruct (patch_value _ _ _).
  - unfold calcularDataFimGarantia, alloc. cbn zeta.
    destruct (truthy _ && truthy _)%bool; [| done].
    by destruct (patch_value _ _ _).
  - unfold onSubmit. destruct (isEditing st) eqn:E; simpl; rewrite ?E; split; reflexivity.
Qed.

Lemma steps_mode_value (tz : Z) (dp : string -> num) (st st' : comp) :
  steps tz dp st st' -> fim_hidden st ->
  isEditing st' = isEditing st /\ produtoId st' = produtoId st /\ fim_hidden st'.
Proof.
  induction 1 as [st | st st1 st2 Hs _ IH]; intros Hf; [done |].
  destruct (step_mode tz dp st st1 Hs) as [E1 E2].
  destruct (IH (fim_hidden_step tz dp st st1 Hs Hf)) as (F1 & F2 & F3).
  split; [congruence | split; [congruence | exact F3]].
Qed.

(** X6: the mode chosen by [ngOnInit] holds for the rest of the run:
    after initialization with a non-empty [id] parameter, every later
    submission calls [updateProduto] with the id [+id], whatever was typed
    or fetched; after initialization of a fresh component without [id],
    every submission calls [addProduto]. *)
Theorem submit_mode_fixed_by_init (tz : Z) (dp : string -> num) (st0 : comp)
    (params : gmap string string) (st : comp) (o : outcome) :
  steps tz dp (fst (ngOnInit st0 params)) st ->
  (forall s, params !! "id" = Some s -> s <> "" ->
     exists p rest, snd (onSubmit st o) = EUpdateProduto p :: rest
                    /\ p !! "id" = Some (VNum (string_to_number s)))
  /\ (isEditing st0 = false -> (params !! "id" = None \/ params !! "id" = Some "") ->
      exists p rest, snd (onSubmit st o) = EAddProduto p :: rest).
Proof.
  intros Hs.
  destruct (steps_mode_value tz dp _ _ Hs (fim_hidden_init st0 params))
    as (E1 & E2 & _ & ps & Hps & _).
  unfold ngOnInit, checkEditMode in E1, E2. split.
  - intros s Hp Hne. rewrite Hp in E1, E2.
    assert (Ht : truthy (VStr s) = true).
    { unfold truthy. apply negb_true_iff. by apply String.eqb_neq. }
    rewrite Ht in E1, E2. simpl in E1, E2.
    unfold onSubmit. rewrite E1, E2. do 2 eexists. split; [reflexivity |].
    rewrite (obj_props_set_prop _ _ ps _ _ Hps). apply lookup_insert_eq.
  - intros H0 Hp. unfold onSubmit.
    assert (Hc : isEditing st = isEditing (createForm st0)).
    { destruct Hp as [Hp | Hp]; rewrite Hp in E1; exact E1. }
    assert (Hc0 : isEditing (createForm st0) = isEditing st0).
    { unfold createForm. by destruct (fb_group _ _). }
    rewrite Hc, Hc0, H0. do 2 eexists. reflexivity.
Qed.

Lemma submit_mode_fixed_by_init_witness :
  (exists p rest,
     snd (onSubmit (set_control_value (fst (ngOnInit constructed {[ "id" := "7" ]}))
                      "id" (VStr "99")) ONext) = EUpdateProduto p :: rest
     /\ p !! "id" = Some (VNum (string_to_number "7")))
  /\ (exists p rest,
     snd (onSubmit (set_control_value (fst (ngOnInit constructed ∅)) "nome" (VStr "TV"))
            ONext) = EAddProduto p :: rest).
Proof.
  split.
  - refine (proj1 (submit_mode_fixed_by_init 0 iso_date_parse constructed {[ "id" := "7" ]}
                     _ ONext _) "7" _ _).
    + eapply steps_cons; [apply step_input | apply steps_refl].
    + reflexivity.
    + discriminate.
  - refine (proj2 (submit_mode_fixed_by_init 0 iso_date_parse constructed ∅ _ ONext _) _ _).
    + eapply steps_cons; [apply step_input | apply steps_refl].
    + reflexivity.
    + left. reflexivity.
Defined.

Lemma checkEditMode_next_patch (st : comp) (p : gmap string jsval) :
  let st' := checkEditMode_next st (Some p) in
  (isEditing st = true ->
     (forall k c v, controls (produtoForm st) !! k = Some c -> p !! k = Some v ->
        controls (produtoForm st') !! k = Some (mkControl v (cdisabled c)))
     /\ (forall k, p !! k = None ->
           controls (produtoForm st') !! k = controls (produtoForm st) !! k)
     /\ (forall k, controls (produtoForm st) !! k = None ->
           controls (produtoForm st') !! k = None)
     /\ heapst st' !! fvalue (produtoForm st')
        = Some (CObj (group_value (controls (produtoForm st'))))
     /\ isEditing st' = true /\ produtoId st' = produtoId st)
  /\ (isEditing st = false -> st' = st)
  /\ checkEditMode_next st None = st.
Proof.
  intros st'. subst st'. unfold checkEditMode_next.
  split; [| split; [intros E; by rewrite E | reflexivity]].
  intros E. rewrite E.
  pose proof (lookup_patch_value (heapst st) (produtoForm st) p) as L.
  unfold patch_value in *.
  match goal with |- context [update_value ?h0 ?cs] =>
    pose proof (update_value_spec h0 cs) as (U1 & U2 & _);
    destruct (update_value h0 cs) as [f h'] end.
  cbn [fst snd produtoForm heapst isEditing produtoId] in *.
  split; [| split; [| split; [| split; [| split]]]].
  - intros k c v Hk Hv. rewrite L, Hk. simpl. by rewrite Hv.
  - intros k Hk. rewrite L, Hk. by destruct (controls (produtoForm st) !! k).
  - intros k Hk. by rewrite L, Hk.
  - by rewrite U1.
  - reflexivity.
  - reflexivity.
Qed.

(** X4: when the fetched product arrives in Edit mode, each control named
    by one of its properties takes that value (keeping its disabled flag),
    the other controls keep theirs, properties without a control are
    ignored, and the form's [value] is refreshed; outside Edit mode, or for
    a falsy product, nothing changes. *)
Theorem checkEditMode_next_fills_fields (st : comp) (p : gmap string jsval) :
  let st' := checkEditMode_next st (Some p) in
  (isEditing st = true ->
     (forall k c v, controls (produtoForm st) !! k = Some c -> p !! k = Some v ->
        controls (produtoForm st') !! k = Some (mkControl v (cdisabled c)))
     /\ (forall k, p !! k = None ->
           controls (produtoForm st') !! k = controls (produtoForm st) !! k)
     /\ (forall k, controls (produtoForm st) !! k = None ->
           controls (produtoForm st') !! k = None)
     /\ heapst st' !! fvalue (produtoForm st')
        = Some (CObj (group_value (controls (produtoForm st'))))
     /\ isEditing st' = true /\ produtoId st' = produtoId st)
  /\ (isEditing st = false -> st' = st)
  /\ checkEditMode_next st None = st.
Proof. apply checkEditMode_next_patch. Qed.

Lemma checkEditMode_next_fills_fields_witness :
  controls (produtoForm (checkEditMode_next (fst (ngOnInit constructed {[ "id" := "7" ]}))
     (Some {[ "nome" := VStr "TV" ]}))) !! "nome" = Some (ctl (VStr "TV"))
  /\ controls (produtoForm (checkEditMode_next (fst (ngOnInit constructed {[ "id" := "7" ]}))
     (Some {[ "nome" := VStr "TV" ]}))) !! "dataCompra" = Some (ctl (VStr "")).
Proof.
  pose proof (checkEditMode_next_fills_fields (fst (ngOnInit constructed {[ "id" := "7" ]}))
                {[ "nome" := VStr "TV" ]}) as H.
  cbv zeta in H. destruct H as [H _].
  destruct (H ltac:(reflexivity)) as (H1 & H2 & _).
  split.
  - apply (H1 "nome" (ctl (VStr ""))); reflexivity.
  - rewrite H2; reflexivity.
Defined.

Lemma createForm_controls (st : comp) :
  controls (produtoForm (createForm st)) = list_to_map createForm_config.
Proof.
  unfold createForm, fb_group.
  pose proof (update_value_spec (heapst st) (list_to_map createForm_config)) as (U1 & _).
  by destruct (update_value _ _).
Qed.

(** X5: editing round trip: after [ngOnInit] with a non-empty [id] and the
    arrival of product [p], a submission without further input sends
    exactly the form's fields: [id] is [+id], [nome], [dataCompra] and
    [duracaoGarantiaMeses] are [p]'s values ([''] where [p] has none), and
    every other property of [p], such as [dataFimGarantia], is dropped. *)
Theorem fetch_then_submit (st0 : comp) (s : string) (p : gmap string jsval) (o : outcome) :
  s <> "" ->
  let st2 := checkEditMode_next (fst (ngOnInit st0 {[ "id" := s ]})) (Some p) in
  exists q, snd (onSubmit st2 o) = EUpdateProduto q :: update_callbacks o
    /\ q !! "id" = Some (VNum (string_to_number s))
    /\ (forall k, In k ["nome"; "dataCompra"; "duracaoGarantiaMeses"] ->
          q !! k = Some (default (VStr "") (p !! k)))
    /\ (forall k, ~ In k ["id"; "nome"; "dataCompra"; "duracaoGarantiaMeses"] ->
          q !! k = None).
Proof.
  intros Hne st2. subst st2.
  assert (Ht : truthy (VStr s) = true).
  { unfold truthy. apply negb_true_iff. by apply String.eqb_neq. }
  pose proof (createForm_controls st0) as HC.
  assert (Hst1 : fst (ngOnInit st0 {[ "id" := s ]})
                 = mkComp (produtoForm (createForm st0)) (heapst (createForm st0))
                          (string_to_number s) true).
  { unfold ngOnInit, checkEditMode. rewrite lookup_singleton_eq, Ht. reflexivity. }
  rewrite Hst1.
  pose proof (checkEditMode_next_patch
                (mkComp (produtoForm (createForm st0)) (heapst (createForm st0))
                        (string_to_number s) true) p) as H.
  cbv zeta in H. destruct H as [H _].
  cbn [produtoForm heapst isEditing produtoId] in H.
  destruct (H eq_refl) as (H1 & H2 & H3 & H4 & H5 & H6). clear H.
  set (st2 := checkEditMode_next _ (Some p)) in *.
  rewrite HC in H1, H2, H3.
  set (cs := controls (produtoForm st2)) in *.
  unfold onSubmit. rewrite H5, H6. cbn [snd].
  rewrite (obj_props_set_prop _ _ (group_value cs) _ _ H4).
  eexists. split; [reflexivity |]. split; [apply lookup_insert_eq | split].
  - intros k Hk.
    assert (Hc : (list_to_map createForm_config : gmap string control) !! k = Some (ctl (VStr ""))).
    { simpl in Hk. repeat destruct Hk as [<- | Hk]; try reflexivity. contradiction. }
    rewrite lookup_insert_ne by (intros <-; simpl in Hk; intuition discriminate).
    destruct (p !! k) as [v |] eqn:Hp.
    + rewrite (group_value_enabled cs k (mkControl v false)); [reflexivity | | reflexivity].
      exact (H1 k _ v Hc Hp).
    + rewrite (group_value_enabled cs k (ctl (VStr ""))); [reflexivity | | reflexivity].
      rewrite (H2 k Hp). exact Hc.
  - intros k Hk.
    rewrite lookup_insert_ne by (intros <-; apply Hk; left; reflexivity).
    unfold group_value. rewrite lookup_omap. rewrite H3; [reflexivity |].
    apply not_elem_of_list_to_map_1. rewrite list_elem_of_In. exact Hk.
Qed.

Lemma fetch_then_submit_witness :
  exists q,
    snd (onSubmit (checkEditMode_next (fst (ngOnInit constructed {[ "id" := "7" ]}))
                     (Some {[ "nome" := VStr "TV"; "dataFimGarantia" := VStr "2025-01-15";
                             "id" := VNum (NFin 7) ]})) ONext)
    = EUpdateProduto q :: update_callbacks ONext
    /\ q !! "nome" = Some (VStr "TV") /\ q !! "dataCompra" = Some (VStr "")
    /\ q !! "dataFimGarantia" = None.
Proof.
  destruct (fetch_then_submit constructed "7"
              {[ "nome" := VStr "TV"; "dataFimGarantia" := VStr "2025-01-15";
                 "id" := VNum (NFin 7) ]} ONext ltac:(discriminate))
    as (q & Hq & _ & Hk & Hn).
  exists q. split; [exact Hq |]. split; [| split].
  - rewrite (Hk "nome"); [reflexivity | simpl; auto].
  - rewrite (Hk "dataCompra"); [reflexivity | simpl; auto].
  - apply Hn. simpl. intuition discriminate.
Defined.

(** X8: [produto] is the form's [value] object itself, so an Edit submission
    writes the stored id into [produtoForm.value.id], leaves the other
    properties and every other object alone, and leaves the controls (the
    [id] field keeps what was typed). *)
Theorem onSubmit_edit_writes_form_value (st : comp) (o : outcome) :
  value_is_object st = true -> isEditing st = true ->
  let st' := fst (onSubmit st o) in
  produtoForm st' = produtoForm st
  /\ get_prop (heapst st') (fvalue (produtoForm st)) "id" = VNum (produtoId st)
  /\ (forall k, k <> "id" ->
        get_prop (heapst st') (fvalue (produtoForm st)) k
        = get_prop (heapst st) (fvalue (produtoForm st)) k)
  /\ (forall l, l <> fvalue (produtoForm st) -> heapst st' !! l = heapst st !! l).
Proof.
  intros Hv He st'. subst st'. unfold onSubmit. rewrite He. simpl.
  unfold value_is_object in Hv.
  destruct (heapst st !! fvalue (produtoForm st)) as [[tv | ps] |] eqn:E; try discriminate.
  split; [reflexivity | split; [| split]].
  - unfold get_prop. by rewrite (obj_props_set_prop _ _ ps _ _ E), lookup_insert_eq.
  - intros k Hk. unfold get_prop. rewrite (obj_props_set_prop _ _ ps _ _ E).
    unfold obj_props. rewrite E. by rewrite lookup_insert_ne by congruence.
  - intros l Hl. unfold set_prop. rewrite E. by rewrite lookup_insert_ne by congruence.
Qed.

Lemma onSubmit_edit_writes_form_value_witness :
  get_prop (heapst (fst (onSubmit edit_state ONext))) (fvalue (produtoForm edit_state)) "id"
    = VNum (NFin 7)
  /\ controls (produtoForm (fst (onSubmit edit_state ONext))) !! "id" = Some (ctl (VStr "99")).
Proof.
  destruct (onSubmit_edit_writes_form_value edit_state ONext
              ltac:(vm_compute; reflexivity) ltac:(vm_compute; reflexivity)) as (H1 & H2 & _).
  split.
  - rewrite H2. vm_compute. reflexivity.
  - rewrite H1. vm_compute. reflexivity.
Defined.


